(** * Point-in-time lookup over the audit log

    A shallow embedding of [auditlog/history.py]: the two result dataclasses
    and the two query methods of [HistoricalStateLookupManagerMixin], followed
    by the properties of the lookup that the design document states. *)

From stdpp Require Import gmap strings list sorting.
From Stdlib Require Import ZArith Lia.

Set Warnings "-register-all".
Local Open Scope Z_scope.

(** ** Python values

    [serialized_data] is a nullable JSON column: what the code reads back is
    [None] or any decoded JSON document.  [JNull] is Python's [None]; a
    [dict] with string keys is a finite map; [JFloat] carries the binary64
    bit pattern of a [float]. *)

Inductive json : Type :=
  | JNull
  | JBool (b : bool)
  | JInt (n : Z)
  | JFloat (bits : Z)
  | JStr (s : string)
  | JList (l : list json)
  | JDict (d : gmap string json).

(** Exceptions that can leave the two methods. *)
Inductive exn : Type :=
  | NotImplementedError
  | AttributeError
  | DatabaseError (msg : string).

Inductive result (A : Type) : Type :=
  | Ok (a : A)
  | Raise (e : exn).
Arguments Ok {A} a.
Arguments Raise {A} e.

Module Py.

(** [bool(v)]: the truth value Python's [or] tests. *)
Definition truthy (v : json) : bool :=
  match v with
  | JNull => false
  | JBool b => b
  | JInt n => negb (n =? 0)
  | JFloat bits => negb (Z.land bits (2 ^ 63 - 1) =? 0)
  | JStr s => negb (String.eqb s EmptyString)
  | JList l => match l with [] => false | _ :: _ => true end
  | JDict d => negb (bool_decide (d = ∅))
  end.

(** [a or b]. *)
Definition or (a b : json) : json := if truthy a then a else b.

(** [v.copy()]: [dict] and [list] have the method (a shallow copy is the
    same value); every other JSON value raises [AttributeError]. *)
Definition copy (v : json) : result json :=
  match v with
  | JDict _ | JList _ => Ok v
  | _ => Raise AttributeError
  end.

(** [d.get(key, dflt)]. *)
Definition get (d : gmap string json) (key : string) (dflt : json) : json :=
  default dflt (d !! key).

(** [isinstance(v, dict)]. *)
Definition isinstance_dict (v : json) : bool :=
  match v with JDict _ => true | _ => false end.

(** [key in v], for the [dict] the code applies it to. *)
Definition contains (key : string) (v : json) : bool :=
  match v with
  | JDict d => bool_decide (is_Some (d !! key))
  | _ => false
  end.

(** [v.get(key)], for the [dict] the code applies it to. *)
Definition get_or_none (v : json) (key : string) : json :=
  match v with
  | JDict d => get d key JNull
  | _ => JNull
  end.

End Py.

(** ** The snapshot record *)

Module LogEntry.

(** Modelled from the spec: the [LogEntry] model is declared in
    [auditlog/models.py], which is not part of the sources at hand; the
    three attributes the lookup reads are taken from the Snapshot Record of
    the data model.  Timestamps are totally ordered; they are counted in
    microseconds. *)
Record t : Type := mk {
  id : Z;
  timestamp : Z;
  serialized_data : json
}.

End LogEntry.

(** ** The two result dataclasses *)

Module HistoricalObjectState.

(** [serialized_fields] is annotated [Optional[dict]]; it holds whatever
    value the lookup computed, [JNull] standing for [None]. *)
Record t : Type := mk {
  log_found : bool;
  serialized_fields : json;
  timestamp : option Z;
  log_entry_id : option Z
}.

End HistoricalObjectState.

Module HistoricalFieldState.

Record t : Type := mk {
  log_found : bool;
  field_found : bool;
  field_name : string;
  value : json;
  timestamp : option Z;
  log_entry_id : option Z
}.

End HistoricalFieldState.

(** ** The query set

    The rows a manager hands back, in the order the backend yields them.
    [filter(timestamp__lte=T)], [order_by("-timestamp")] and [first()] are
    the three query-set operations the lookup chains. *)

Abbreviation QuerySet := (list LogEntry.t).

Module QuerySet.

(** [a] sorts before [b] under [order_by("-timestamp")]. *)
Definition newer_eq (a b : LogEntry.t) : Prop :=
  LogEntry.timestamp b <= LogEntry.timestamp a.

#[global] Instance newer_eq_dec a b : Decision (newer_eq a b) :=
  decide (LogEntry.timestamp b <= LogEntry.timestamp a).

Definition filter_timestamp_lte (T : Z) (qs : QuerySet) : QuerySet :=
  filter (λ e, LogEntry.timestamp e <= T) qs.

(** [order_by("-timestamp")]: newest first; rows with the same timestamp
    stay in the order in which the backend yields them, since the method
    names no second sort key. *)
Fixpoint insert_desc (x : LogEntry.t) (sorted : QuerySet) : QuerySet :=
  match sorted with
  | [] => [x]
  | y :: rest =>
      if decide (newer_eq x y) then x :: sorted else y :: insert_desc x rest
  end.

Definition order_by_timestamp_desc (qs : QuerySet) : QuerySet :=
  foldr insert_desc [] qs.

Definition first (qs : QuerySet) : option LogEntry.t := head qs.

End QuerySet.

(** ** The manager

    The methods run against a log store that they may read; a computation
    takes the store and gives back a value or an exception together with the
    store it leaves behind. *)

Section Manager.

Context {Instance Store : Type}.

Definition M (A : Type) : Type := Store → result A * Store.

#[global] Instance M_ret : MRet M := λ A a db, (Ok a, db).

#[global] Instance M_bind : MBind M := λ A B f m db,
  match m db with
  | (Ok a, db') => f a db'
  | (Raise e, db') => (Raise e, db')
  end.

Definition raise {A} (e : exn) : M A := λ db, (Raise e, db).

(** A value or exception computed without touching the store. *)
Definition lift {A} (r : result A) : M A := λ db, (r, db).

(** A manager is the mixin together with the [get_for_object] its class
    supplies (the method the mixin calls on [self]). *)
Record Manager : Type := {
  get_for_object : Instance → M QuerySet
}.

(** The mixin on its own: [get_for_object] is not implemented. *)
Definition HistoricalStateLookupManagerMixin : Manager :=
  {| get_for_object := λ _, raise NotImplementedError |}.

Definition get_object_state_at_timestamp
    (self : Manager) (instance : Instance) (timestamp : Z)
    : M HistoricalObjectState.t :=
  qs ← get_for_object self instance;
  let log :=
    QuerySet.first
      (QuerySet.order_by_timestamp_desc
         (QuerySet.filter_timestamp_lte timestamp qs)) in
  match log with
  | None =>
      (* Exit if log not found for given timestamp *)
      mret {| HistoricalObjectState.log_found := false;
              HistoricalObjectState.serialized_fields := JNull;
              HistoricalObjectState.timestamp := None;
              HistoricalObjectState.log_entry_id := None |}
  | Some log =>
      (* Otherwise, get the serialized fields or none *)
      serialized_fields ←
        match LogEntry.serialized_data log with
        | JDict d =>
            c ← lift (Py.copy (Py.get d "fields" (JDict ∅)));
            mret (Py.or c JNull)
        | _ => mret JNull
        end;
      mret {| HistoricalObjectState.log_found := true;
              HistoricalObjectState.serialized_fields := serialized_fields;
              HistoricalObjectState.timestamp := Some (LogEntry.timestamp log);
              HistoricalObjectState.log_entry_id := Some (LogEntry.id log) |}
  end.

Definition get_field_state_at_timestamp
    (self : Manager) (instance : Instance) (field_name : string)
    (timestamp : Z) : M HistoricalFieldState.t :=
  object_state ← get_object_state_at_timestamp self instance timestamp;
  (* Exit here if log not found for this timestamp *)
  if negb (HistoricalObjectState.log_found object_state) then
    mret {| HistoricalFieldState.log_found := false;
            HistoricalFieldState.field_found := false;
            HistoricalFieldState.field_name := field_name;
            HistoricalFieldState.value := JNull;
            HistoricalFieldState.timestamp := None;
            HistoricalFieldState.log_entry_id := None |}
  else
    let fields := HistoricalObjectState.serialized_fields object_state in
    if negb (Py.isinstance_dict fields) || negb (Py.contains field_name fields)
    then
      mret {| HistoricalFieldState.log_found := true;
              HistoricalFieldState.field_found := false;
              HistoricalFieldState.field_name := field_name;
              HistoricalFieldState.value := JNull;
              HistoricalFieldState.timestamp :=
                HistoricalObjectState.timestamp object_state;
              HistoricalFieldState.log_entry_id :=
                HistoricalObjectState.log_entry_id object_state |}
    else
      mret {| HistoricalFieldState.log_found := true;
              HistoricalFieldState.field_found := true;
              HistoricalFieldState.field_name := field_name;
              HistoricalFieldState.value := Py.get_or_none fields field_name;
              HistoricalFieldState.timestamp :=
                HistoricalObjectState.timestamp object_state;
              HistoricalFieldState.log_entry_id :=
                HistoricalObjectState.log_entry_id object_state |}.

End Manager.

Arguments Manager : clear implicits.
Arguments M : clear implicits.

(** ** Vocabulary of the statements *)

(** The snapshot the lookup selects among the rows [qs] for the target [T]:
    the expression bound to [log] in [get_object_state_at_timestamp]. *)
Definition selected (T : Z) (qs : QuerySet) : option LogEntry.t :=
  QuerySet.first
    (QuerySet.order_by_timestamp_desc (QuerySet.filter_timestamp_lte T qs)).

(** What lines 75-78 compute from a payload, outside the store monad. *)
Definition read_fields (payload : json) : result json :=
  match payload with
  | JDict d =>
      match Py.copy (Py.get d "fields" (JDict ∅)) with
      | Ok c => Ok (Py.or c JNull)
      | Raise e => Raise e
      end
  | _ => Ok JNull
  end.

(** The payload carries a fields mapping: it is a [dict] whose ["fields"]
    entry is a [dict]. *)
Definition fields_mapping (payload : json) : option (gmap string json) :=
  match payload with
  | JDict d => match d !! "fields" with Some (JDict m) => Some m | _ => None end
  | _ => None
  end.

(** [e] is a latest row of [qs] not after [T]. *)
Definition latest_not_after (T : Z) (qs : QuerySet) (e : LogEntry.t) : Prop :=
  e ∈ qs ∧ LogEntry.timestamp e <= T ∧
  ∀ e', e' ∈ qs → LogEntry.timestamp e' <= T →
        LogEntry.timestamp e' <= LogEntry.timestamp e.

(** The result for a target with no snapshot at or before it. *)
Definition no_log : HistoricalObjectState.t :=
  {| HistoricalObjectState.log_found := false;
     HistoricalObjectState.serialized_fields := JNull;
     HistoricalObjectState.timestamp := None;
     HistoricalObjectState.log_entry_id := None |}.

(** The result built from the selected snapshot and its decoded fields. *)
Definition found_log (log : LogEntry.t) (fields : json)
    : HistoricalObjectState.t :=
  {| HistoricalObjectState.log_found := true;
     HistoricalObjectState.serialized_fields := fields;
     HistoricalObjectState.timestamp := Some (LogEntry.timestamp log);
     HistoricalObjectState.log_entry_id := Some (LogEntry.id log) |}.

(** What [get_field_state_at_timestamp] returns once the object-level result
    is at hand (lines 103-131). *)
Definition project_field (field_name : string)
    (object_state : HistoricalObjectState.t) : HistoricalFieldState.t :=
  if negb (HistoricalObjectState.log_found object_state) then
    HistoricalFieldState.mk false false field_name JNull None None
  else
    let fields := HistoricalObjectState.serialized_fields object_state in
    if negb (Py.isinstance_dict fields) || negb (Py.contains field_name fields)
    then
      HistoricalFieldState.mk true false field_name JNull
        (HistoricalObjectState.timestamp object_state)
        (HistoricalObjectState.log_entry_id object_state)
    else
      HistoricalFieldState.mk true true field_name
        (Py.get_or_none fields field_name)
        (HistoricalObjectState.timestamp object_state)
        (HistoricalObjectState.log_entry_id object_state).

(** The ["fields"] entry of the payload, if any, is a value [copy] accepts. *)
Definition fields_entry_copyable (payload : json) : Prop :=
  match payload with
  | JDict d =>
      match d !! "fields" with
      | Some (JDict _) | Some (JList _) | None => True
      | Some _ => False
      end
  | _ => True
  end.

(** [field_name] is a key of the mapping [fields]. *)
Definition has_key (field_name : string) (fields : json) : Prop :=
  ∃ d v, fields = JDict d ∧ d !! field_name = Some v.

(** ** The back-reference to the full record

    Both dataclasses carry a [log_entry] property that fetches the record
    again with [LogEntry.objects.get(id=self.log_entry_id)]. *)

(** How [objects.get(...)] ends: with the one matching row, or with one of
    the two exceptions of the query API. *)
Inductive get_outcome : Type :=
  | Got (e : LogEntry.t)
  | DoesNotExist
  | MultipleObjectsReturned.

Module Objects.

(** [objects.get(id=k)] over the rows [objects] of the table: the rows whose
    id is [k] are collected; exactly one is returned, none or several raise.
    No row has a null id, so [k = None] matches nothing. *)
Definition get (objects : QuerySet) (k : option Z) : get_outcome :=
  match filter (λ e, Some (LogEntry.id e) = k) objects with
  | [] => DoesNotExist
  | [e] => Got e
  | _ :: _ :: _ => MultipleObjectsReturned
  end.

End Objects.

(** [HistoricalObjectState.log_entry]. *)
Definition object_state_log_entry
    (objects : QuerySet) (self : HistoricalObjectState.t) : get_outcome :=
  Objects.get objects (HistoricalObjectState.log_entry_id self).

(** [HistoricalFieldState.log_entry]. *)
Definition field_state_log_entry
    (objects : QuerySet) (self : HistoricalFieldState.t) : get_outcome :=
  Objects.get objects (HistoricalFieldState.log_entry_id self).

(** [v] is a value without a [copy] method: neither a [dict] nor a list. *)
Definition not_copyable (v : json) : Prop :=
  (∀ m, v ≠ JDict m) ∧ (∀ l, v ≠ JList l).

(** ** A manager over a table of rows *)

(** Modelled from the spec: the [get_for_object] of the concrete manager lives
    in [auditlog/models.py], outside the sources at hand; following
    [records_for(entity)], it reads the rows the store associates with the
    entity and leaves the store as it is. *)
Definition LogEntryManager : Manager string (string → QuerySet) :=
  {| get_for_object := λ instance db, (Ok (db instance), db) |}.

Module Scenario.

Definition payload (fields : json) : json :=
  JDict {[ "model" := JStr "app.thing"; "pk" := JInt 1; "fields" := fields ]}.

Definition name_is (s : string) : json := JDict {[ "name" := JStr s ]}.

(** Snapshots at t=1 (name "a") and t=5 (name "b"). *)
Definition two_snapshots : string → QuerySet := λ _,
  [ LogEntry.mk 10 1 (payload (name_is "a"));
    LogEntry.mk 11 5 (payload (name_is "b")) ].

Definition no_snapshots : string → QuerySet := λ _, [].

(** What the lookups at T=3 and T=10 return over [two_snapshots]. *)
Definition state_a : HistoricalObjectState.t :=
  HistoricalObjectState.mk true (name_is "a") (Some 1) (Some 10).

Definition state_b : HistoricalObjectState.t :=
  HistoricalObjectState.mk true (name_is "b") (Some 5) (Some 11).

Definition field_b : HistoricalFieldState.t :=
  HistoricalFieldState.mk true true "name" (JStr "b") (Some 5) (Some 11).

(** The rows of [two_snapshots] as the backend might also yield them. *)
Definition two_snapshots_reversed : string → QuerySet := λ _,
  [ LogEntry.mk 11 5 (payload (name_is "b"));
    LogEntry.mk 10 1 (payload (name_is "a")) ].

(** [two_snapshots] after a third snapshot was written at t=8. *)
Definition three_snapshots : string → QuerySet := λ _,
  two_snapshots "e" ++ [ LogEntry.mk 12 8 (payload (name_is "c")) ].

(** Two snapshots written at the same instant t=5, in either order. *)
Definition tied_snapshots : string → QuerySet := λ _,
  [ LogEntry.mk 70 5 (payload (name_is "a"));
    LogEntry.mk 71 5 (payload (name_is "b")) ].

Definition tied_snapshots_reversed : string → QuerySet := λ _,
  [ LogEntry.mk 71 5 (payload (name_is "b"));
    LogEntry.mk 70 5 (payload (name_is "a")) ].

(** What the lookup at T=10 returns over the two orders. *)
Definition tied_state_70 : HistoricalObjectState.t :=
  HistoricalObjectState.mk true (name_is "a") (Some 5) (Some 70).

Definition tied_state_71 : HistoricalObjectState.t :=
  HistoricalObjectState.mk true (name_is "b") (Some 5) (Some 71).

(** A single snapshot at t=1 whose payload is [None]. *)
Definition null_payload : string → QuerySet := λ _,
  [ LogEntry.mk 20 1 JNull ].

(** A single snapshot at t=1 whose payload is [{..., "fields": null}]. *)
Definition null_fields : string → QuerySet := λ _,
  [ LogEntry.mk 30 1 (payload JNull) ].

(** A single snapshot at t=1 whose payload is [{..., "fields": [1]}]. *)
Definition list_fields : string → QuerySet := λ _,
  [ LogEntry.mk 31 1 (payload (JList [JInt 1])) ].

(** A good snapshot at t=1, then one at t=5 with ["fields": null]. *)
Definition null_fields_latest : string → QuerySet := λ _,
  [ LogEntry.mk 40 1 (payload (name_is "a"));
    LogEntry.mk 41 5 (payload JNull) ].

(** A single snapshot at t=1 whose fields mapping is [{}]. *)
Definition empty_fields : string → QuerySet := λ _,
  [ LogEntry.mk 50 1 (payload (JDict ∅)) ].

(** A single snapshot at t=1 whose fields mapping is [{"name": null}]. *)
Definition null_value : string → QuerySet := λ _,
  [ LogEntry.mk 60 1 (payload (JDict {[ "name" := JNull ]})) ].

End Scenario.

(** ** The query-set chain *)

Section Selection.

Implicit Types (qs : QuerySet) (log e : LogEntry.t) (T : Z).

#[local] Instance newer_eq_trans : Transitive QuerySet.newer_eq.
Proof. unfold QuerySet.newer_eq. intros a b c ? ?. lia. Qed.

#[local] Instance newer_eq_total : Total QuerySet.newer_eq.
Proof. unfold QuerySet.newer_eq. intros a b. lia. Qed.

Lemma insert_desc_Permutation x qs : QuerySet.insert_desc x qs ≡ₚ x :: qs.
Proof.
  induction qs as [|y qs IH]; simpl; [done|].
  destruct (decide (QuerySet.newer_eq x y)); [done|].
  by rewrite IH, Permutation_swap.
Qed.

Lemma order_by_Permutation qs : QuerySet.order_by_timestamp_desc qs ≡ₚ qs.
Proof.
  unfold QuerySet.order_by_timestamp_desc.
  induction qs as [|x qs IH]; simpl; [done|].
  by rewrite insert_desc_Permutation, IH.
Qed.

Lemma insert_desc_StronglySorted x qs :
  StronglySorted QuerySet.newer_eq qs →
  StronglySorted QuerySet.newer_eq (QuerySet.insert_desc x qs).
Proof.
  induction qs as [|y qs IH]; simpl.
  { intros _. by repeat constructor. }
  intros [Hall Hsorted]%StronglySorted_cons.
  destruct (decide (QuerySet.newer_eq x y)) as [Hxy|Hxy].
  - apply StronglySorted_cons. split; [|by apply StronglySorted_cons].
    constructor; [done|].
    eapply Forall_impl; [exact Hall|]. intros z Hyz. by transitivity y.
  - apply StronglySorted_cons. split; [|by apply IH].
    rewrite insert_desc_Permutation. constructor; [|done].
    by destruct (total QuerySet.newer_eq x y).
Qed.

Lemma order_by_StronglySorted qs :
  StronglySorted QuerySet.newer_eq (QuerySet.order_by_timestamp_desc qs).
Proof.
  unfold QuerySet.order_by_timestamp_desc.
  induction qs as [|x qs IH]; simpl; [constructor|].
  by apply insert_desc_StronglySorted.
Qed.

Lemma order_by_elem_of qs e :
  e ∈ QuerySet.order_by_timestamp_desc qs ↔ e ∈ qs.
Proof. by rewrite order_by_Permutation. Qed.

Lemma first_order_by_newest qs log :
  QuerySet.first (QuerySet.order_by_timestamp_desc qs) = Some log →
  log ∈ qs ∧ ∀ e, e ∈ qs → LogEntry.timestamp e <= LogEntry.timestamp log.
Proof.
  unfold QuerySet.first. intros Hhd.
  pose proof (order_by_StronglySorted qs) as Hsorted.
  apply head_Some in Hhd as [tl Htl].
  split.
  - apply order_by_elem_of. rewrite Htl. left.
  - intros e He. apply order_by_elem_of in He.
    rewrite Htl in He, Hsorted.
    apply StronglySorted_cons in Hsorted as [Hall _].
    apply elem_of_cons in He as [->|He]; [lia|].
    rewrite Forall_forall in Hall. by apply Hall.
Qed.

Lemma first_order_by_None qs :
  QuerySet.first (QuerySet.order_by_timestamp_desc qs) = None ↔ qs = [].
Proof.
  unfold QuerySet.first. rewrite head_None. split.
  - intros Hnil. destruct qs as [|e qs]; [done|].
    assert (e ∈ QuerySet.order_by_timestamp_desc (e :: qs)) as He
      by (apply order_by_elem_of; left).
    rewrite Hnil in He. by apply elem_of_nil in He.
  - by intros ->.
Qed.

Lemma selected_Some T qs log :
  selected T qs = Some log → latest_not_after T qs log.
Proof.
  unfold selected, latest_not_after, QuerySet.filter_timestamp_lte.
  intros [Hin Hmax]%first_order_by_newest.
  apply list_elem_of_filter in Hin as [HT Hin].
  repeat split; [done..|].
  intros e' He' HT'. apply Hmax. by apply list_elem_of_filter.
Qed.

Lemma selected_None T qs :
  selected T qs = None ↔ ∀ e, e ∈ qs → ¬ LogEntry.timestamp e <= T.
Proof.
  unfold selected, QuerySet.filter_timestamp_lte.
  rewrite first_order_by_None. split.
  - intros Hnil e He HT.
    by apply (filter_nil_not_elem_of _ _ e Hnil HT).
  - intros Hnone.
    destruct (filter _ qs) as [|e l] eqn:Hf; [done|].
    assert (e ∈ filter (λ e, LogEntry.timestamp e <= T) qs) as He
      by (rewrite Hf; left).
    apply list_elem_of_filter in He as [HT He]. by destruct (Hnone e He).
Qed.

Lemma selected_is_Some T qs e :
  e ∈ qs → LogEntry.timestamp e <= T → is_Some (selected T qs).
Proof.
  intros He HT. destruct (selected T qs) eqn:Hsel; [by eexists|].
  rewrite selected_None in Hsel. by destruct (Hsel e He).
Qed.

End Selection.

(** ** The two methods, unfolded *)

Section Lookup.

Context {Instance Store : Type}.
Implicit Types (self : Manager Instance Store) (instance : Instance).
Implicit Types (db : Store) (qs : QuerySet) (log : LogEntry.t) (T : Z).
Implicit Types (field_name : string).

Lemma get_object_state_at_timestamp_run self instance T db :
  get_object_state_at_timestamp self instance T db =
  match get_for_object self instance db with
  | (Ok qs, db') =>
      match selected T qs with
      | None => (Ok no_log, db')
      | Some log =>
          match read_fields (LogEntry.serialized_data log) with
          | Ok fields => (Ok (found_log log fields), db')
          | Raise e => (Raise e, db')
          end
      end
  | (Raise e, db') => (Raise e, db')
  end.
Proof.
  unfold get_object_state_at_timestamp, selected, mbind, M_bind.
  destruct (get_for_object self instance db) as [[qs|e] db']; [|done].
  destruct (QuerySet.first _) as [log|]; [|done].
  unfold read_fields, lift, mret, M_ret.
  destruct (LogEntry.serialized_data log); try done.
  by destruct (Py.copy _).
Qed.

Lemma get_field_state_at_timestamp_run self instance field_name T db :
  get_field_state_at_timestamp self instance field_name T db =
  match get_object_state_at_timestamp self instance T db with
  | (Ok object_state, db') => (Ok (project_field field_name object_state), db')
  | (Raise e, db') => (Raise e, db')
  end.
Proof.
  unfold get_field_state_at_timestamp, project_field, mbind, M_bind.
  destruct (get_object_state_at_timestamp _ _ _ _) as [[os|e] db']; [|done].
  destruct (negb (HistoricalObjectState.log_found os)); [done|].
  by destruct (_ || _).
Qed.

(** Neither method writes to the store beyond what [get_for_object] does. *)
Lemma get_object_state_at_timestamp_store self instance T db :
  (get_object_state_at_timestamp self instance T db).2
  = (get_for_object self instance db).2.
Proof.
  rewrite get_object_state_at_timestamp_run.
  destruct (get_for_object self instance db) as [[qs|e] db']; [|done].
  destruct (selected T qs) as [log|]; [|done].
  by destruct (read_fields _).
Qed.

Lemma get_field_state_at_timestamp_store self instance field_name T db :
  (get_field_state_at_timestamp self instance field_name T db).2
  = (get_for_object self instance db).2.
Proof.
  rewrite get_field_state_at_timestamp_run.
  rewrite <- (get_object_state_at_timestamp_store self instance T db).
  by destruct (get_object_state_at_timestamp _ _ _ _) as [[os|e] db'].
Qed.

(** An object-level result that was returned comes from the rows the
    manager handed back: either none of them is at or before [T], or the
    result is built from the selected one. *)
Lemma get_object_state_at_timestamp_Ok self instance T db object_state db' :
  get_object_state_at_timestamp self instance T db = (Ok object_state, db') →
  ∃ qs, get_for_object self instance db = (Ok qs, db') ∧
    ((selected T qs = None ∧ object_state = no_log) ∨
     (∃ log fields, selected T qs = Some log ∧
        read_fields (LogEntry.serialized_data log) = Ok fields ∧
        object_state = found_log log fields)).
Proof.
  rewrite get_object_state_at_timestamp_run.
  destruct (get_for_object self instance db) as [[qs|e] db'']; [|done].
  destruct (selected T qs) as [log|] eqn:Hsel.
  - destruct (read_fields _) as [fields|e] eqn:Hrd; [|done].
    intros [= <- <-]. exists qs. split; [done|]. right. by exists log, fields.
  - intros [= <- <-]. exists qs. split; [done|]. by left.
Qed.

Lemma read_fields_copyable payload :
  fields_entry_copyable payload → ∃ fields, read_fields payload = Ok fields.
Proof.
  unfold fields_entry_copyable, read_fields, Py.get.
  destruct payload as [| | | | | |d]; try by eexists.
  destruct (d !! "fields") as [[]|]; simpl; try done; by eexists.
Qed.

(** The selection is right whenever the selected payload can be decoded:
    the result names a latest row not after [T]. *)
Lemma get_object_state_at_timestamp_latest self instance T db qs :
  get_for_object self instance db = (Ok qs, db) →
  (∃ e, e ∈ qs ∧ LogEntry.timestamp e <= T) →
  (∀ e, e ∈ qs → fields_entry_copyable (LogEntry.serialized_data e)) →
  ∃ log fields,
    latest_not_after T qs log ∧
    get_object_state_at_timestamp self instance T db
    = (Ok (found_log log fields), db).
Proof.
  intros Hqs (e & He & HT) Hpayload.
  rewrite get_object_state_at_timestamp_run, Hqs.
  destruct (selected_is_Some T qs e He HT) as [log Hsel]. rewrite Hsel.
  pose proof (selected_Some _ _ _ Hsel) as Hlatest.
  destruct (read_fields_copyable (LogEntry.serialized_data log))
    as [fields ->]; [apply Hpayload, Hlatest|].
  by exists log, fields.
Qed.

(** A payload that is [None], is not a [dict], or is a [dict] without a
    ["fields"] key decodes to no fields. *)
Lemma read_fields_missing payload :
  (∀ d, payload = JDict d → d !! "fields" = None) →
  read_fields payload = Ok JNull.
Proof.
  intros Hd. destruct payload as [| | | | | |d]; try done.
  unfold read_fields, Py.get. by rewrite (Hd d eq_refl).
Qed.

End Lookup.

(** ** Decoding a payload that carries a fields mapping *)

Lemma read_fields_mapping payload m :
  fields_mapping payload = Some m →
  read_fields payload = Ok (if decide (m = ∅) then JNull else JDict m).
Proof.
  unfold fields_mapping, read_fields, Py.get.
  destruct payload as [| | | | | |d]; try done.
  destruct (d !! "fields") as [[| | | | | |m']|]; try done.
  intros [= ->]. simpl. unfold Py.or, Py.truthy.
  rewrite bool_decide_decide. by destruct (decide (m = ∅)).
Qed.

Lemma project_field_found field_name log d v :
  d !! field_name = Some v →
  project_field field_name (found_log log (JDict d))
  = HistoricalFieldState.mk true true field_name v
      (Some (LogEntry.timestamp log)) (Some (LogEntry.id log)).
Proof.
  intros Hv. unfold project_field, found_log, Py.get. simpl.
  rewrite bool_decide_true by (by rewrite Hv). simpl.
  unfold Py.get. by rewrite Hv.
Qed.

Lemma project_field_missing field_name log fields :
  ¬ has_key field_name fields →
  project_field field_name (found_log log fields)
  = HistoricalFieldState.mk true false field_name JNull
      (Some (LogEntry.timestamp log)) (Some (LogEntry.id log)).
Proof.
  intros Hkey. unfold project_field, found_log. simpl.
  destruct fields as [| | | | | |d]; try done. simpl.
  rewrite bool_decide_false; [done|].
  intros [v Hv]. apply Hkey. by exists d, v.
Qed.

(** ** Properties of the lookup *)

Section Properties.

Context {Instance Store : Type}.
Implicit Types (self : Manager Instance Store) (instance : Instance).
Implicit Types (db : Store) (qs : QuerySet) (log : LogEntry.t) (T : Z).
Implicit Types (field_name : string).

(** C2. When none of the entity's snapshots is at or before [T], the
    object-level lookup returns [log_found = False] and leaves
    [serialized_fields], [timestamp] and [log_entry_id] at [None]. *)
Theorem no_snapshot_not_found self instance T db qs :
  get_for_object self instance db = (Ok qs, db) →
  (∀ e, e ∈ qs → ¬ LogEntry.timestamp e <= T) →
  ∃ object_state,
    get_object_state_at_timestamp self instance T db = (Ok object_state, db) ∧
    HistoricalObjectState.log_found object_state = false ∧
    HistoricalObjectState.serialized_fields object_state = JNull ∧
    HistoricalObjectState.timestamp object_state = None ∧
    HistoricalObjectState.log_entry_id object_state = None.
Proof.
  intros Hqs Hnone. apply selected_None in Hnone.
  exists no_log.
  by rewrite get_object_state_at_timestamp_run, Hqs, Hnone.
Qed.

(** C4. When the selected snapshot's fields mapping is present but empty,
    the object-level lookup reports [serialized_fields] as [None], not as
    an empty mapping, and the field-level lookup of any field name returns
    [field_found = False]. *)
Theorem empty_fields_reported_absent self instance T db qs log :
  get_for_object self instance db = (Ok qs, db) →
  selected T qs = Some log →
  fields_mapping (LogEntry.serialized_data log) = Some ∅ →
  (∃ object_state,
     get_object_state_at_timestamp self instance T db = (Ok object_state, db) ∧
     HistoricalObjectState.log_found object_state = true ∧
     HistoricalObjectState.serialized_fields object_state = JNull) ∧
  (∀ field_name, ∃ field_state,
     get_field_state_at_timestamp self instance field_name T db
     = (Ok field_state, db) ∧
     HistoricalFieldState.field_found field_state = false).
Proof.
  intros Hqs Hsel Hempty.
  assert (get_object_state_at_timestamp self instance T db
          = (Ok (found_log log JNull), db)) as Hobj.
  { rewrite get_object_state_at_timestamp_run, Hqs, Hsel.
    by rewrite (read_fields_mapping _ _ Hempty). }
  split.
  - by exists (found_log log JNull).
  - intros field_name. eexists.
    rewrite get_field_state_at_timestamp_run, Hobj. done.
Qed.

(** C5. When the object-level result has [log_found = True], the
    field-level lookup returns [field_found = False] if
    [serialized_fields] is [None] or does not have [field_name] as a key,
    and otherwise [field_found = True] with the value the mapping holds
    for [field_name]. *)
Theorem field_projection self instance field_name T db object_state db' :
  get_object_state_at_timestamp self instance T db = (Ok object_state, db') →
  HistoricalObjectState.log_found object_state = true →
  ∃ field_state,
    get_field_state_at_timestamp self instance field_name T db
    = (Ok field_state, db') ∧
    (HistoricalObjectState.serialized_fields object_state = JNull ∨
     ¬ has_key field_name (HistoricalObjectState.serialized_fields object_state) →
     HistoricalFieldState.field_found field_state = false) ∧
    (∀ d v,
       HistoricalObjectState.serialized_fields object_state = JDict d →
       d !! field_name = Some v →
       HistoricalFieldState.field_found field_state = true ∧
       HistoricalFieldState.value field_state = v).
Proof.
  intros Hobj Hfound.
  destruct (get_object_state_at_timestamp_Ok _ _ _ _ _ _ Hobj)
    as (qs & _ & [[_ ->]|(log & fields & _ & _ & ->)]); [done|].
  eexists. split.
  { by rewrite get_field_state_at_timestamp_run, Hobj. }
  simpl. split.
  - intros Hmiss. rewrite project_field_missing; [done|].
    destruct Hmiss as [->|Hmiss]; [|done]. by intros (d & v & ? & _).
  - intros d v -> Hv. by rewrite (project_field_found _ _ _ _ Hv).
Qed.


(** C7. Every field-level result carries the requested [field_name];
    [field_found = True] only with [log_found = True]; and with
    [log_found = False], [field_found] is [False] and [value],
    [timestamp] and [log_entry_id] are [None]. *)
Theorem field_state_invariant self instance field_name T db field_state db' :
  get_field_state_at_timestamp self instance field_name T db
  = (Ok field_state, db') →
  HistoricalFieldState.field_name field_state = field_name ∧
  (HistoricalFieldState.field_found field_state = true →
   HistoricalFieldState.log_found field_state = true) ∧
  (HistoricalFieldState.log_found field_state = false →
   HistoricalFieldState.field_found field_state = false ∧
   HistoricalFieldState.value field_state = JNull ∧
   HistoricalFieldState.timestamp field_state = None ∧
   HistoricalFieldState.log_entry_id field_state = None).
Proof.
  rewrite get_field_state_at_timestamp_run.
  destruct (get_object_state_at_timestamp _ _ _ _) as [[os|e] db'']; [|done].
  intros [= <- <-]. unfold project_field.
  destruct (HistoricalObjectState.log_found os); simpl; [|done].
  by destruct (_ || _).
Qed.

(** C8. Over the same log, when the lookups for [T1 < T2] both find a
    snapshot, the one selected for [T2] has a timestamp at least that of
    the one selected for [T1]. *)
Theorem selection_monotone self instance T1 T2 db os1 os2 db1 db2 :
  T1 < T2 →
  get_object_state_at_timestamp self instance T1 db = (Ok os1, db1) →
  get_object_state_at_timestamp self instance T2 db = (Ok os2, db2) →
  HistoricalObjectState.log_found os1 = true →
  HistoricalObjectState.log_found os2 = true →
  ∃ t1 t2,
    HistoricalObjectState.timestamp os1 = Some t1 ∧
    HistoricalObjectState.timestamp os2 = Some t2 ∧
    t1 <= t2.
Proof.
  intros HT H1 H2 Hf1 Hf2.
  apply get_object_state_at_timestamp_Ok in H1
    as (qs & Hqs1 & [[_ ->]|(log1 & f1 & Hsel1 & _ & ->)]); [done|].
  apply get_object_state_at_timestamp_Ok in H2
    as (qs' & Hqs2 & [[_ ->]|(log2 & f2 & Hsel2 & _ & ->)]); [done|].
  rewrite Hqs1 in Hqs2. injection Hqs2 as <- _.
  apply selected_Some in Hsel1 as (Hin1 & Hle1 & _).
  apply selected_Some in Hsel2 as (_ & _ & Hmax2).
  exists (LogEntry.timestamp log1), (LogEntry.timestamp log2).
  repeat split. apply Hmax2; [done|lia].
Qed.

(** C9. Against a log that reading leaves unchanged, each lookup leaves
    the store as it found it, and a second call with the same arguments
    yields the same outcome as the first. *)
Theorem lookups_repeatable self instance field_name T db :
  (get_for_object self instance db).2 = db →
  let first_object := get_object_state_at_timestamp self instance T db in
  let second_object :=
    get_object_state_at_timestamp self instance T first_object.2 in
  let first_field :=
    get_field_state_at_timestamp self instance field_name T db in
  let second_field :=
    get_field_state_at_timestamp self instance field_name T first_field.2 in
  first_object.2 = db ∧ second_object = first_object ∧
  first_field.2 = db ∧ second_field = first_field.
Proof.
  intros Hread. simpl.
  rewrite get_object_state_at_timestamp_store,
    get_field_state_at_timestamp_store, Hread.
  done.
Qed.

(** C10. When the selected snapshot's fields mapping holds [field_name]
    with the value [None], the field-level lookup returns
    [field_found = True] and [value = None]: a [None] value does not mean
    the field was missing. *)
Theorem null_value_is_found self instance field_name T db qs log m :
  get_for_object self instance db = (Ok qs, db) →
  selected T qs = Some log →
  fields_mapping (LogEntry.serialized_data log) = Some m →
  m !! field_name = Some JNull →
  ∃ field_state,
    get_field_state_at_timestamp self instance field_name T db
    = (Ok field_state, db) ∧
    HistoricalFieldState.log_found field_state = true ∧
    HistoricalFieldState.field_found field_state = true ∧
    HistoricalFieldState.value field_state = JNull.
Proof.
  intros Hqs Hsel Hm Hnull.
  assert (m ≠ ∅) as Hne by (intros ->; by rewrite lookup_empty in Hnull).
  eexists. split.
  - rewrite get_field_state_at_timestamp_run,
      get_object_state_at_timestamp_run, Hqs, Hsel.
    rewrite (read_fields_mapping _ _ Hm), decide_False by done.
    by rewrite (project_field_found _ _ _ _ Hnull).
  - done.
Qed.

End Properties.

(** ** The properties at work on the example log *)

Lemma no_snapshot_not_found_witness :
  ∃ object_state,
    get_object_state_at_timestamp LogEntryManager "e" 0 Scenario.two_snapshots
    = (Ok object_state, Scenario.two_snapshots) ∧
    HistoricalObjectState.log_found object_state = false ∧
    HistoricalObjectState.serialized_fields object_state = JNull ∧
    HistoricalObjectState.timestamp object_state = None ∧
    HistoricalObjectState.log_entry_id object_state = None.
Proof.
  apply (no_snapshot_not_found LogEntryManager "e" 0 Scenario.two_snapshots
           (Scenario.two_snapshots "e")).
  - reflexivity.
  - intros e He.
    repeat (apply elem_of_cons in He as [->|He]); simpl; [lia..|].
    by apply elem_of_nil in He.
Defined.

Lemma empty_fields_reported_absent_witness :
  (∃ object_state,
     get_object_state_at_timestamp LogEntryManager "e" 5 Scenario.empty_fields
     = (Ok object_state, Scenario.empty_fields) ∧
     HistoricalObjectState.log_found object_state = true ∧
     HistoricalObjectState.serialized_fields object_state = JNull) ∧
  (∀ field_name, ∃ field_state,
     get_field_state_at_timestamp LogEntryManager "e" field_name 5
       Scenario.empty_fields
     = (Ok field_state, Scenario.empty_fields) ∧
     HistoricalFieldState.field_found field_state = false).
Proof.
  apply (empty_fields_reported_absent LogEntryManager "e" 5
           Scenario.empty_fields (Scenario.empty_fields "e")
           (LogEntry.mk 50 1 (Scenario.payload (JDict ∅)))).
  - reflexivity.
  - vm_compute. reflexivity.
  - vm_compute. reflexivity.
Defined.

Lemma field_projection_witness :
  ∃ field_state,
    get_field_state_at_timestamp LogEntryManager "e" "name" 10
      Scenario.two_snapshots
    = (Ok field_state, Scenario.two_snapshots) ∧
    HistoricalFieldState.field_found field_state = true ∧
    HistoricalFieldState.value field_state = JStr "b".
Proof.
  destruct (field_projection LogEntryManager "e" "name" 10
              Scenario.two_snapshots Scenario.state_b Scenario.two_snapshots)
    as (field_state & Hrun & _ & Hfound).
  - vm_compute. reflexivity.
  - reflexivity.
  - exists field_state. split; [exact Hrun|].
    apply (Hfound {[ "name" := JStr "b" ]}).
    + reflexivity.
    + vm_compute. reflexivity.
Defined.


Lemma field_state_invariant_witness :
  HistoricalFieldState.field_name Scenario.field_b = "name" ∧
  (HistoricalFieldState.field_found Scenario.field_b = true →
   HistoricalFieldState.log_found Scenario.field_b = true) ∧
  (HistoricalFieldState.log_found Scenario.field_b = false →
   HistoricalFieldState.field_found Scenario.field_b = false ∧
   HistoricalFieldState.value Scenario.field_b = JNull ∧
   HistoricalFieldState.timestamp Scenario.field_b = None ∧
   HistoricalFieldState.log_entry_id Scenario.field_b = None).
Proof.
  apply (field_state_invariant LogEntryManager "e" "name" 10
           Scenario.two_snapshots Scenario.field_b Scenario.two_snapshots).
  vm_compute. reflexivity.
Defined.

Lemma selection_monotone_witness :
  ∃ t1 t2,
    HistoricalObjectState.timestamp Scenario.state_a = Some t1 ∧
    HistoricalObjectState.timestamp Scenario.state_b = Some t2 ∧
    t1 <= t2.
Proof.
  apply (selection_monotone LogEntryManager "e" 3 10 Scenario.two_snapshots
           Scenario.state_a Scenario.state_b
           Scenario.two_snapshots Scenario.two_snapshots).
  - lia.
  - vm_compute. reflexivity.
  - vm_compute. reflexivity.
  - reflexivity.
  - reflexivity.
Defined.

Lemma lookups_repeatable_witness :
  let first_object :=
    get_object_state_at_timestamp LogEntryManager "e" 10 Scenario.two_snapshots in
  let second_object :=
    get_object_state_at_timestamp LogEntryManager "e" 10 first_object.2 in
  let first_field :=
    get_field_state_at_timestamp LogEntryManager "e" "name" 10
      Scenario.two_snapshots in
  let second_field :=
    get_field_state_at_timestamp LogEntryManager "e" "name" 10 first_field.2 in
  first_object.2 = Scenario.two_snapshots ∧ second_object = first_object ∧
  first_field.2 = Scenario.two_snapshots ∧ second_field = first_field.
Proof.
  apply (lookups_repeatable LogEntryManager "e" "name" 10
           Scenario.two_snapshots).
  reflexivity.
Defined.

Lemma null_value_is_found_witness :
  ∃ field_state,
    get_field_state_at_timestamp LogEntryManager "e" "name" 5
      Scenario.null_value
    = (Ok field_state, Scenario.null_value) ∧
    HistoricalFieldState.log_found field_state = true ∧
    HistoricalFieldState.field_found field_state = true ∧
    HistoricalFieldState.value field_state = JNull.
Proof.
  apply (null_value_is_found LogEntryManager "e" "name" 5 Scenario.null_value
           (Scenario.null_value "e")
           (LogEntry.mk 60 1 (Scenario.payload (JDict {[ "name" := JNull ]})))
           {[ "name" := JNull ]}).
  - reflexivity.
  - vm_compute. reflexivity.
  - vm_compute. reflexivity.
  - vm_compute. reflexivity.
Defined.

(** ** The defect in decoding the payload

    [log.serialized_data.get("fields", {}).copy()] guards the payload with
    [isinstance(..., dict)] and the missing key with the default [{}], but
    not the value bound to ["fields"]: a [null], string, number or boolean
    there has no [copy] method, and a non-empty list is handed back as
    [serialized_fields]. *)

(** C1. The claim asks that whenever a snapshot at or before [T] exists the
    lookup returns [log_found = True] with the latest timestamp and that
    record's id.  Among the rows of [null_fields_latest] the latest one not
    after 7 is row 41 (t=5); the lookup at 7 raises [AttributeError] instead
    of returning, while the lookup at 3 returns row 40 (t=1). *)
Theorem latest_snapshot_lookup_raises_on_null_fields :
  latest_not_after 7 (Scenario.null_fields_latest "e")
    (LogEntry.mk 41 5 (Scenario.payload JNull)) ∧
  get_object_state_at_timestamp LogEntryManager "e" 7 Scenario.null_fields_latest
  = (Raise AttributeError, Scenario.null_fields_latest) ∧
  get_object_state_at_timestamp LogEntryManager "e" 3 Scenario.null_fields_latest
  = (Ok (HistoricalObjectState.mk true (Scenario.name_is "a") (Some 1) (Some 40)),
     Scenario.null_fields_latest).
Proof.
  split; [|split; vm_compute; reflexivity].
  unfold latest_not_after, Scenario.null_fields_latest. simpl.
  split; [apply elem_of_cons; right; apply elem_of_cons; by left|].
  split; [lia|].
  intros e' He' _.
  repeat (apply elem_of_cons in He' as [->|He']); simpl; [lia..|].
  by apply elem_of_nil in He'.
Qed.

(** C3. The claim asks that a selected snapshot whose payload lacks a fields
    mapping is tolerated: no exception, [log_found = True],
    [serialized_fields = None].  A payload whose ["fields"] entry is [null]
    carries no fields mapping and makes the lookup raise [AttributeError];
    one whose ["fields"] entry is the list [[1]] carries none either and
    comes back with that list as [serialized_fields]. *)
Theorem non_mapping_fields_entry_not_tolerated :
  fields_mapping (Scenario.payload JNull) = None ∧
  get_object_state_at_timestamp LogEntryManager "e" 5 Scenario.null_fields
  = (Raise AttributeError, Scenario.null_fields) ∧
  fields_mapping (Scenario.payload (JList [JInt 1])) = None ∧
  get_object_state_at_timestamp LogEntryManager "e" 5 Scenario.list_fields
  = (Ok (HistoricalObjectState.mk true (JList [JInt 1]) (Some 1) (Some 31)),
     Scenario.list_fields).
Proof. repeat split; vm_compute; reflexivity. Qed.

(** The part of the tolerance that does hold: a selected payload that is
    [None], is not a [dict], or is a [dict] without a ["fields"] key gives
    [log_found = True] with [serialized_fields = None], and no exception. *)
Lemma missing_payload_tolerated {Instance Store : Type}
    (self : Manager Instance Store) instance T db qs log :
  get_for_object self instance db = (Ok qs, db) →
  selected T qs = Some log →
  (∀ d, LogEntry.serialized_data log = JDict d → d !! "fields" = None) →
  get_object_state_at_timestamp self instance T db
  = (Ok (found_log log JNull), db).
Proof.
  intros Hqs Hsel Hmiss.
  by rewrite get_object_state_at_timestamp_run, Hqs, Hsel,
    (read_fields_missing _ Hmiss).
Qed.

(** The defect in general: whenever the selected payload is a [dict] whose
    ["fields"] entry is neither a [dict] nor a list, the lookup raises
    [AttributeError], whatever the manager and the other rows are. *)
Lemma scalar_fields_entry_raises {Instance Store : Type}
    (self : Manager Instance Store) instance T db qs log d v :
  get_for_object self instance db = (Ok qs, db) →
  selected T qs = Some log →
  LogEntry.serialized_data log = JDict d →
  d !! "fields" = Some v →
  Py.copy v = Raise AttributeError →
  get_object_state_at_timestamp self instance T db = (Raise AttributeError, db).
Proof.
  intros Hqs Hsel Hd Hv Hcopy.
  rewrite get_object_state_at_timestamp_run, Hqs, Hsel, Hd.
  unfold read_fields, Py.get. rewrite Hv. simpl. by rewrite Hcopy.
Qed.

(** ** The example scenarios of the design document *)

Example scenario_1 :
  get_object_state_at_timestamp LogEntryManager "e" 3 Scenario.no_snapshots
  = (Ok no_log, Scenario.no_snapshots).
Proof. reflexivity. Qed.

Example scenario_2 :
  get_object_state_at_timestamp LogEntryManager "e" 3 Scenario.two_snapshots
  = (Ok (HistoricalObjectState.mk true (Scenario.name_is "a") (Some 1) (Some 10)),
     Scenario.two_snapshots).
Proof. vm_compute. reflexivity. Qed.

Example scenario_3 :
  get_object_state_at_timestamp LogEntryManager "e" 10 Scenario.two_snapshots
  = (Ok (HistoricalObjectState.mk true (Scenario.name_is "b") (Some 5) (Some 11)),
     Scenario.two_snapshots).
Proof. vm_compute. reflexivity. Qed.

Example scenario_4 :
  get_field_state_at_timestamp LogEntryManager "e" "color" 10
    Scenario.two_snapshots
  = (Ok (HistoricalFieldState.mk true false "color" JNull (Some 5) (Some 11)),
     Scenario.two_snapshots).
Proof. vm_compute. reflexivity. Qed.

Example scenario_5 :
  get_field_state_at_timestamp LogEntryManager "e" "name" 10
    Scenario.two_snapshots
  = (Ok (HistoricalFieldState.mk true true "name" (JStr "b") (Some 5) (Some 11)),
     Scenario.two_snapshots).
Proof. vm_compute. reflexivity. Qed.

Example scenario_6 :
  get_object_state_at_timestamp LogEntryManager "e" 5 Scenario.null_payload
  = (Ok (HistoricalObjectState.mk true JNull (Some 1) (Some 20)),
     Scenario.null_payload) ∧
  get_field_state_at_timestamp LogEntryManager "e" "name" 5 Scenario.null_payload
  = (Ok (HistoricalFieldState.mk true false "name" JNull (Some 1) (Some 20)),
     Scenario.null_payload).
Proof. split; vm_compute; reflexivity. Qed.

(** The mixin without a [get_for_object] of its own cannot look anything up. *)
Example mixin_alone_not_implemented (db : unit) :
  get_object_state_at_timestamp
    (HistoricalStateLookupManagerMixin (Instance := string)) "e" 5 db
  = (Raise NotImplementedError, db).
Proof. reflexivity. Qed.

(** ** Further properties of the two methods *)

Section Errors.

Context {Instance Store : Type}.
Implicit Types (self : Manager Instance Store) (instance : Instance).
Implicit Types (db : Store) (qs : QuerySet) (log : LogEntry.t) (T : Z).
Implicit Types (field_name : string) (e : exn).

(** X1. An exception raised by [get_for_object] leaves both methods
    unchanged: neither catches or replaces it. *)
Theorem get_for_object_failure_propagates self instance field_name T db e db' :
  get_for_object self instance db = (Raise e, db') →
  get_object_state_at_timestamp self instance T db = (Raise e, db') ∧
  get_field_state_at_timestamp self instance field_name T db = (Raise e, db').
Proof.
  intros Hfail.
  assert (get_object_state_at_timestamp self instance T db = (Raise e, db'))
    as Hobj by (by rewrite get_object_state_at_timestamp_run, Hfail).
  split; [done|].
  by rewrite get_field_state_at_timestamp_run, Hobj.
Qed.

(** X2. The field-level method adds no failure of its own: it raises
    exactly when the object-level method raises, with the same exception. *)
Theorem field_state_raises_as_object_state self instance field_name T db e db' :
  get_field_state_at_timestamp self instance field_name T db = (Raise e, db') ↔
  get_object_state_at_timestamp self instance T db = (Raise e, db').
Proof.
  rewrite get_field_state_at_timestamp_run.
  destruct (get_object_state_at_timestamp _ _ _ _) as [[os|e'] db''];
    [by split|].
  split; intros [= -> ->]; reflexivity.
Qed.

Lemma read_fields_Raise payload e :
  read_fields payload = Raise e ↔
  e = AttributeError ∧
  ∃ d v, payload = JDict d ∧ d !! "fields" = Some v ∧ not_copyable v.
Proof.
  unfold read_fields, Py.get, not_copyable. split.
  - destruct payload as [| | | | | |d]; try done.
    destruct (d !! "fields") as [v|] eqn:Hv; simpl; [|done].
    destruct v; simpl; try done; intros [= <-]; (split; [done|]);
      eexists _, _; (split; [done|]); (split; [done|]); by split.
  - intros (-> & d & v & -> & Hv & Hd & Hl). rewrite Hv. simpl.
    destruct v; simpl; try done; [by destruct (Hl l)|by destruct (Hd d0)].
Qed.

(** X3. Once [get_for_object] has handed back rows, the only exception the
    object-level method can raise is [AttributeError], and it does so
    exactly when the selected payload is a [dict] whose ["fields"] entry is
    neither a [dict] nor a list. *)
Theorem object_state_raises_iff self instance T db qs db' e :
  get_for_object self instance db = (Ok qs, db') →
  get_object_state_at_timestamp self instance T db = (Raise e, db') ↔
  e = AttributeError ∧
  ∃ log d v,
    selected T qs = Some log ∧
    LogEntry.serialized_data log = JDict d ∧
    d !! "fields" = Some v ∧ not_copyable v.
Proof.
  intros Hqs. rewrite get_object_state_at_timestamp_run, Hqs.
  destruct (selected T qs) as [log|]; last first.
  { split; [done|]. by intros (_ & log & d & v & ? & _). }
  destruct (read_fields (LogEntry.serialized_data log)) as [fields|e'] eqn:Hrd.
  - split; [done|]. intros (-> & log' & d & v & [= <-] & Hd & Hv & Hnc).
    assert (read_fields (LogEntry.serialized_data log) = Raise AttributeError)
      as Hr by (apply read_fields_Raise; split; [done|]; by exists d, v).
    by rewrite Hrd in Hr.
  - apply read_fields_Raise in Hrd as (-> & d & v & Hd & Hv & Hnc). split.
    + intros [= <-]. split; [done|]. by exists log, d, v.
    + by intros (-> & _).
Qed.

Lemma read_fields_Ok payload fields :
  read_fields payload = Ok fields →
  fields = JNull ∨ (∃ m, fields = JDict m ∧ m ≠ ∅) ∨
  (∃ x l, fields = JList (x :: l)).
Proof.
  unfold read_fields, Py.get.
  destruct payload as [| | | | | |d]; try (intros [= <-]; by left).
  destruct (default (JDict ∅) (d !! "fields")) as [| | | | |l|m]; simpl;
    try done; unfold Py.or, Py.truthy.
  - destruct l as [|x l]; intros [= <-]; [by left|]. right; right. by exists x, l.
  - rewrite bool_decide_decide. destruct (decide (m = ∅)) as [->|Hne]; simpl;
      intros [= <-]; [by left|]. right; left. by exists m.
Qed.

(** X4. Every object-level result that is returned is well-shaped: with
    [log_found = False] the other three attributes are [None]; with
    [log_found = True] both [timestamp] and [log_entry_id] are set; and
    [serialized_fields] is [None], a non-empty [dict] or a non-empty list,
    never an empty container and never a scalar. *)
Theorem object_state_invariant self instance T db object_state db' :
  get_object_state_at_timestamp self instance T db = (Ok object_state, db') →
  (HistoricalObjectState.log_found object_state = false →
   HistoricalObjectState.serialized_fields object_state = JNull ∧
   HistoricalObjectState.timestamp object_state = None ∧
   HistoricalObjectState.log_entry_id object_state = None) ∧
  (HistoricalObjectState.log_found object_state = true →
   is_Some (HistoricalObjectState.timestamp object_state) ∧
   is_Some (HistoricalObjectState.log_entry_id object_state)) ∧
  (HistoricalObjectState.serialized_fields object_state = JNull ∨
   (∃ m, HistoricalObjectState.serialized_fields object_state = JDict m ∧
         m ≠ ∅) ∨
   (∃ x l, HistoricalObjectState.serialized_fields object_state
           = JList (x :: l))).
Proof.
  intros Hobj.
  apply get_object_state_at_timestamp_Ok in Hobj
    as (qs & _ & [[_ ->]|(log & fields & _ & Hrd & ->)]); simpl.
  - repeat split; try done. by left.
  - split; [done|]. split; [by split; eexists|].
    by apply read_fields_Ok in Hrd.
Qed.

(** X5. [log_found] reports exactly whether the log has a row at or before
    [T]; and when it is [True], [timestamp] and [log_entry_id] are those of
    a latest such row: never of a row after [T], never of an older row
    while a newer one at or before [T] exists. *)
Theorem returned_snapshot_is_latest self instance T db qs db' object_state :
  get_for_object self instance db = (Ok qs, db') →
  get_object_state_at_timestamp self instance T db = (Ok object_state, db') →
  (HistoricalObjectState.log_found object_state = true ↔
   ∃ row, row ∈ qs ∧ LogEntry.timestamp row <= T) ∧
  (HistoricalObjectState.log_found object_state = true →
   ∃ log, latest_not_after T qs log ∧
     HistoricalObjectState.timestamp object_state
     = Some (LogEntry.timestamp log) ∧
     HistoricalObjectState.log_entry_id object_state
     = Some (LogEntry.id log)).
Proof.
  intros Hqs Hobj.
  apply get_object_state_at_timestamp_Ok in Hobj
    as (qs' & Hqs' & [[Hsel ->]|(log & fields & Hsel & _ & ->)]);
    rewrite Hqs in Hqs'; injection Hqs' as <-; simpl.
  - split; [|done]. split; [done|].
    intros (row & He & HT). rewrite selected_None in Hsel.
    by destruct (Hsel row He).
  - pose proof (selected_Some _ _ _ Hsel) as Hlatest. split.
    + split; [|done]. intros _. exists log. by destruct Hlatest as (? & ? & _).
    + intros _. by exists log.
Qed.

End Errors.

Section Selecting.

Context {Instance Store : Type}.
Implicit Types (self : Manager Instance Store) (instance : Instance).
Implicit Types (db : Store) (qs : QuerySet) (log row : LogEntry.t) (T : Z).
Implicit Types (field_name : string).

(** X6. When the log has a row at or before [T] and the ["fields"] entry of
    every payload, where there is one, is a [dict] or a list, the
    object-level method returns: [log_found = True], and [timestamp] and
    [log_entry_id] are those of a latest row at or before [T]. *)
Theorem lookup_returns_latest_when_decodable self instance T db qs :
  get_for_object self instance db = (Ok qs, db) →
  (∃ row, row ∈ qs ∧ LogEntry.timestamp row <= T) →
  (∀ row, row ∈ qs → fields_entry_copyable (LogEntry.serialized_data row)) →
  ∃ object_state log,
    get_object_state_at_timestamp self instance T db = (Ok object_state, db) ∧
    latest_not_after T qs log ∧
    HistoricalObjectState.log_found object_state = true ∧
    HistoricalObjectState.timestamp object_state
    = Some (LogEntry.timestamp log) ∧
    HistoricalObjectState.log_entry_id object_state = Some (LogEntry.id log).
Proof.
  intros Hqs Hrow Hpayload.
  destruct (get_object_state_at_timestamp_latest self instance T db qs
              Hqs Hrow Hpayload) as (log & fields & Hlatest & Hrun).
  by exists (found_log log fields), log.
Qed.

(** X7. Field lookup end to end: when the selected row's fields mapping
    binds [field_name] to [v], the field-level method returns
    [field_found = True] with [value = v], together with the row's
    [timestamp] and [id]. *)
Theorem field_lookup_returns_stored_value
    self instance field_name T db qs log m v :
  get_for_object self instance db = (Ok qs, db) →
  selected T qs = Some log →
  fields_mapping (LogEntry.serialized_data log) = Some m →
  m !! field_name = Some v →
  get_field_state_at_timestamp self instance field_name T db
  = (Ok (HistoricalFieldState.mk true true field_name v
           (Some (LogEntry.timestamp log)) (Some (LogEntry.id log))), db).
Proof.
  intros Hqs Hsel Hm Hv.
  assert (m ≠ ∅) as Hne by (intros ->; by rewrite lookup_empty in Hv).
  rewrite get_field_state_at_timestamp_run,
    get_object_state_at_timestamp_run, Hqs, Hsel.
  rewrite (read_fields_mapping _ _ Hm), decide_False by done.
  by rewrite (project_field_found _ _ _ _ Hv).
Qed.

(** X8. Field lookup end to end: when the selected row's fields mapping has
    no key [field_name], the field-level method returns [log_found = True],
    [field_found = False] and [value = None], still together with the row's
    [timestamp] and [id]. *)
Theorem field_lookup_missing_key self instance field_name T db qs log m :
  get_for_object self instance db = (Ok qs, db) →
  selected T qs = Some log →
  fields_mapping (LogEntry.serialized_data log) = Some m →
  m !! field_name = None →
  get_field_state_at_timestamp self instance field_name T db
  = (Ok (HistoricalFieldState.mk true false field_name JNull
           (Some (LogEntry.timestamp log)) (Some (LogEntry.id log))), db).
Proof.
  intros Hqs Hsel Hm Hv.
  rewrite get_field_state_at_timestamp_run,
    get_object_state_at_timestamp_run, Hqs, Hsel.
  rewrite (read_fields_mapping _ _ Hm).
  rewrite project_field_missing; [done|].
  destruct (decide (m = ∅)); [by intros (d & x & ? & _)|].
  intros (d & x & [= <-] & Hx). by rewrite Hv in Hx.
Qed.

Lemma filter_timestamp_lte_app_later T qs extra :
  (∀ row, row ∈ extra → T < LogEntry.timestamp row) →
  QuerySet.filter_timestamp_lte T (qs ++ extra)
  = QuerySet.filter_timestamp_lte T qs.
Proof.
  intros Hlater. unfold QuerySet.filter_timestamp_lte.
  rewrite filter_app.
  assert (filter (λ e, LogEntry.timestamp e <= T) extra = []) as ->.
  { induction extra as [|x extra IH]; [done|].
    rewrite filter_cons, decide_False.
    - apply IH. intros row Hrow. apply Hlater. by right.
    - assert (T < LogEntry.timestamp x) by (apply Hlater; by left). lia. }
  by rewrite app_nil_r.
Qed.

(** X9. Rows appended to the log with a timestamp after [T] do not change
    what either method answers for [T]. *)
Theorem later_rows_ignored
    self instance field_name T db1 db1' db2 db2' qs extra :
  get_for_object self instance db1 = (Ok qs, db1') →
  get_for_object self instance db2 = (Ok (qs ++ extra), db2') →
  (∀ row, row ∈ extra → T < LogEntry.timestamp row) →
  (get_object_state_at_timestamp self instance T db2).1
  = (get_object_state_at_timestamp self instance T db1).1 ∧
  (get_field_state_at_timestamp self instance field_name T db2).1
  = (get_field_state_at_timestamp self instance field_name T db1).1.
Proof.
  intros Hqs1 Hqs2 Hlater.
  assert (selected T (qs ++ extra) = selected T qs) as Hsel
    by (unfold selected; by rewrite filter_timestamp_lte_app_later).
  assert ((get_object_state_at_timestamp self instance T db2).1
          = (get_object_state_at_timestamp self instance T db1).1) as Hobj.
  { rewrite !get_object_state_at_timestamp_run, Hqs1, Hqs2, Hsel.
    destruct (selected T qs) as [log|]; [|done].
    by destruct (read_fields _). }
  split; [done|].
  rewrite !get_field_state_at_timestamp_run.
  destruct (get_object_state_at_timestamp self instance T db2) as [r2 s2].
  destruct (get_object_state_at_timestamp self instance T db1) as [r1 s1].
  simpl in Hobj. subst r2. by destruct r1.
Qed.

Lemma filter_timestamp_lte_between T T' qs log :
  latest_not_after T qs log →
  LogEntry.timestamp log <= T' → T' <= T →
  QuerySet.filter_timestamp_lte T' qs = QuerySet.filter_timestamp_lte T qs.
Proof.
  intros (_ & _ & Hmax) Hlo Hhi. unfold QuerySet.filter_timestamp_lte.
  induction qs as [|x qs IH]; [done|].
  rewrite !filter_cons.
  rewrite IH by (intros e' He'; apply Hmax; by right).
  destruct (decide (LogEntry.timestamp x <= T')) as [Hx|Hx].
  - rewrite decide_True by lia. done.
  - rewrite decide_False; [done|].
    intros HxT. apply Hx.
    assert (LogEntry.timestamp x <= LogEntry.timestamp log)
      by (apply Hmax; [by left|done]).
    lia.
Qed.

(** X10. The answer is constant between a snapshot and the next: when the
    lookup for [T] returns the snapshot with timestamp [t], the lookup for
    every [T'] with [t <= T' <= T] returns the same result. *)
Theorem answer_constant_since_snapshot
    self instance T T' db object_state db' t :
  get_object_state_at_timestamp self instance T db = (Ok object_state, db') →
  HistoricalObjectState.timestamp object_state = Some t →
  t <= T' → T' <= T →
  get_object_state_at_timestamp self instance T' db = (Ok object_state, db').
Proof.
  intros Hobj Ht Hlo Hhi.
  apply get_object_state_at_timestamp_Ok in Hobj
    as (qs & Hqs & [[_ ->]|(log & fields & Hsel & Hrd & ->)]); [done|].
  injection Ht as <-.
  assert (selected T' qs = Some log) as Hsel'.
  { unfold selected in *.
    by rewrite (filter_timestamp_lte_between T T' qs log
                  (selected_Some _ _ _ Hsel)). }
  by rewrite get_object_state_at_timestamp_run, Hqs, Hsel', Hrd.
Qed.

End Selecting.

Section RowOrder.

Context {Instance Store : Type}.
Implicit Types (self : Manager Instance Store) (instance : Instance).
Implicit Types (db : Store) (qs : QuerySet) (log row : LogEntry.t) (T : Z).

Lemma latest_not_after_perm T qs1 qs2 log :
  qs1 ≡ₚ qs2 → latest_not_after T qs1 log → latest_not_after T qs2 log.
Proof.
  intros Hperm (Hin & HT & Hmax). repeat split; [by rewrite <- Hperm|done|].
  intros e' He'. apply Hmax. by rewrite Hperm.
Qed.

Lemma selected_perm T qs1 qs2 log1 :
  qs1 ≡ₚ qs2 → selected T qs1 = Some log1 →
  ∃ log2, selected T qs2 = Some log2 ∧
          LogEntry.timestamp log2 = LogEntry.timestamp log1 ∧ log2 ∈ qs1.
Proof.
  intros Hperm Hsel1.
  pose proof (selected_Some _ _ _ Hsel1) as H1.
  apply (latest_not_after_perm _ _ _ _ Hperm) in H1 as (Hin1 & HT1 & _).
  destruct (selected_is_Some T qs2 log1 Hin1 HT1) as [log2 Hsel2].
  exists log2. split; [done|].
  apply selected_Some in Hsel1 as (_ & _ & Hmax1).
  apply selected_Some in Hsel2 as (Hin2 & HT2 & Hmax2).
  rewrite <- Hperm in Hin2. split; [|done].
  assert (LogEntry.timestamp log2 <= LogEntry.timestamp log1)
    by (by apply Hmax1).
  assert (LogEntry.timestamp log1 <= LogEntry.timestamp log2)
    by (by apply Hmax2).
  lia.
Qed.

Lemma selected_perm_None T qs1 qs2 :
  qs1 ≡ₚ qs2 → selected T qs1 = None → selected T qs2 = None.
Proof.
  rewrite !selected_None. intros Hperm Hnone e He.
  apply Hnone. by rewrite Hperm.
Qed.

Lemma distinct_timestamps_inj qs a b :
  NoDup (LogEntry.timestamp <$> qs) → a ∈ qs → b ∈ qs →
  LogEntry.timestamp a = LogEntry.timestamp b → a = b.
Proof.
  induction qs as [|x qs IH]; [by intros _ ?%elem_of_nil|].
  rewrite fmap_cons, NoDup_cons.
  intros [Hx Hnd] [->|Ha]%elem_of_cons [->|Hb]%elem_of_cons Heq;
    [done| | |by apply IH].
  - destruct Hx. rewrite Heq. by apply list_elem_of_fmap_2.
  - destruct Hx. rewrite <- Heq. by apply list_elem_of_fmap_2.
Qed.

(** X11. When the rows of the log carry pairwise distinct timestamps, the
    outcome of the object-level method does not depend on the order in
    which the backend yields the rows. *)
Theorem outcome_independent_of_row_order
    self instance T db1 db1' db2 db2' qs1 qs2 :
  get_for_object self instance db1 = (Ok qs1, db1') →
  get_for_object self instance db2 = (Ok qs2, db2') →
  qs1 ≡ₚ qs2 →
  NoDup (LogEntry.timestamp <$> qs1) →
  (get_object_state_at_timestamp self instance T db1).1
  = (get_object_state_at_timestamp self instance T db2).1.
Proof.
  intros Hqs1 Hqs2 Hperm Hdistinct.
  assert (selected T qs1 = selected T qs2) as Hsel.
  { destruct (selected T qs1) as [log1|] eqn:Hsel1.
    - destruct (selected_perm T qs1 qs2 log1 Hperm Hsel1)
        as (log2 & -> & Hts & Hin2).
      f_equal. apply (distinct_timestamps_inj qs1); [done| |done|done].
      by apply selected_Some in Hsel1 as (? & _).
    - by rewrite (selected_perm_None T qs1 qs2 Hperm Hsel1). }
  rewrite !get_object_state_at_timestamp_run, Hqs1, Hqs2, Hsel.
  destruct (selected T qs2) as [log|]; [|done].
  by destruct (read_fields _).
Qed.

(** X12. Even when rows share a timestamp, the order in which the backend
    yields them can change which of the tied rows is selected but not the
    answer's [log_found] nor its [timestamp]. *)
Theorem timestamp_independent_of_row_order
    self instance T db1 db1' db2 db2' qs1 qs2 os1 os2 :
  get_for_object self instance db1 = (Ok qs1, db1') →
  get_for_object self instance db2 = (Ok qs2, db2') →
  qs1 ≡ₚ qs2 →
  get_object_state_at_timestamp self instance T db1 = (Ok os1, db1') →
  get_object_state_at_timestamp self instance T db2 = (Ok os2, db2') →
  HistoricalObjectState.log_found os1 = HistoricalObjectState.log_found os2 ∧
  HistoricalObjectState.timestamp os1 = HistoricalObjectState.timestamp os2.
Proof.
  intros Hqs1 Hqs2 Hperm H1 H2.
  apply get_object_state_at_timestamp_Ok in H1
    as (qs & Hqs & [[Hsel1 ->]|(log1 & f1 & Hsel1 & _ & ->)]);
    rewrite Hqs1 in Hqs; injection Hqs as <-;
  apply get_object_state_at_timestamp_Ok in H2
    as (qs & Hqs & [[Hsel2 ->]|(log2 & f2 & Hsel2 & _ & ->)]);
    rewrite Hqs2 in Hqs; injection Hqs as <-; simpl.
  - done.
  - apply (selected_perm_None T qs1 qs2 Hperm) in Hsel1.
    by rewrite Hsel1 in Hsel2.
  - symmetry in Hperm. apply (selected_perm_None T qs2 qs1 Hperm) in Hsel2.
    by rewrite Hsel2 in Hsel1.
  - destruct (selected_perm T qs1 qs2 log1 Hperm Hsel1)
      as (log2' & Hsel2' & Hts & _).
    rewrite Hsel2 in Hsel2'. injection Hsel2' as <-.
    by rewrite Hts.
Qed.

End RowOrder.

Section BackReference.

Context {Instance Store : Type}.
Implicit Types (self : Manager Instance Store) (instance : Instance).
Implicit Types (db : Store) (qs objects : QuerySet) (log row : LogEntry.t).
Implicit Types (T : Z) (field_name : string).

Lemma filter_id_absent objects k :
  k ∉ LogEntry.id <$> objects →
  filter (λ e, Some (LogEntry.id e) = Some k) objects = [].
Proof.
  induction objects as [|x objects IH]; [done|].
  rewrite fmap_cons, not_elem_of_cons. intros [Hne Hk].
  rewrite filter_cons, decide_False; [by apply IH|].
  intros [= Hid]. by destruct Hne.
Qed.

Lemma objects_get_unique objects log :
  NoDup (LogEntry.id <$> objects) → log ∈ objects →
  Objects.get objects (Some (LogEntry.id log)) = Got log.
Proof.
  intros Hnd Hin. unfold Objects.get.
  assert (filter (λ e, Some (LogEntry.id e) = Some (LogEntry.id log)) objects
          = [log]) as ->; [|done].
  induction objects as [|x objects IH]; [by apply elem_of_nil in Hin|].
  rewrite fmap_cons, NoDup_cons in Hnd. destruct Hnd as [Hx Hnd].
  rewrite filter_cons.
  apply elem_of_cons in Hin as [->|Hin].
  - rewrite decide_True by done. f_equal. by apply filter_id_absent.
  - rewrite decide_False.
    + by apply IH.
    + intros [= Hid]. apply Hx. rewrite Hid. by apply list_elem_of_fmap_2.
Qed.

Lemma filter_id_null objects k :
  k = None → filter (λ e, Some (LogEntry.id e) = k) objects = [].
Proof.
  intros Hk. induction objects as [|x objects IH]; [done|].
  rewrite filter_cons, decide_False; [done|]. by rewrite Hk.
Qed.

Lemma objects_get_None objects : Objects.get objects None = DoesNotExist.
Proof. unfold Objects.get. by rewrite (filter_id_null objects None eq_refl). Qed.

(** X13. Round trip through the back-reference: when ids are unique in the
    table and the rows of the entity are rows of the table, the [log_entry]
    of a result with [log_found = True] is a latest row at or before [T],
    and its timestamp is the one the result carries. *)
Theorem log_entry_is_selected_row
    self instance T db qs db' object_state objects :
  NoDup (LogEntry.id <$> objects) →
  (∀ row, row ∈ qs → row ∈ objects) →
  get_for_object self instance db = (Ok qs, db') →
  get_object_state_at_timestamp self instance T db = (Ok object_state, db') →
  HistoricalObjectState.log_found object_state = true →
  ∃ log,
    object_state_log_entry objects object_state = Got log ∧
    latest_not_after T qs log ∧
    HistoricalObjectState.timestamp object_state
    = Some (LogEntry.timestamp log).
Proof.
  intros Hnd Hsub Hqs Hobj Hfound.
  apply get_object_state_at_timestamp_Ok in Hobj
    as (qs' & Hqs' & [[_ ->]|(log & fields & Hsel & _ & ->)]); [done|].
  rewrite Hqs in Hqs'. injection Hqs' as <-.
  pose proof (selected_Some _ _ _ Hsel) as Hlatest.
  exists log. split; [|done].
  unfold object_state_log_entry. simpl.
  apply objects_get_unique; [done|]. apply Hsub. by destruct Hlatest.
Qed.

(** X14. The [log_entry] of a result with [log_found = False] raises
    [DoesNotExist], whatever the table holds. *)
Theorem log_entry_of_not_found
    self instance T db db' object_state objects :
  get_object_state_at_timestamp self instance T db = (Ok object_state, db') →
  HistoricalObjectState.log_found object_state = false →
  object_state_log_entry objects object_state = DoesNotExist.
Proof.
  intros Hobj Hfound.
  apply get_object_state_at_timestamp_Ok in Hobj
    as (qs & _ & [[_ ->]|(log & fields & _ & _ & ->)]); [|done].
  change (Objects.get objects None = DoesNotExist).
  apply objects_get_None.
Qed.

(** X15. The two back-references agree: for the same entity and target,
    [log_entry] of the field-level result fetches what [log_entry] of the
    object-level result fetches. *)
Theorem field_and_object_log_entry_agree
    self instance field_name T db object_state field_state db' objects :
  get_object_state_at_timestamp self instance T db = (Ok object_state, db') →
  get_field_state_at_timestamp self instance field_name T db
  = (Ok field_state, db') →
  field_state_log_entry objects field_state
  = object_state_log_entry objects object_state.
Proof.
  intros Hobj. rewrite get_field_state_at_timestamp_run, Hobj.
  intros [= <-]. unfold field_state_log_entry, object_state_log_entry.
  f_equal. unfold project_field.
  apply get_object_state_at_timestamp_Ok in Hobj
    as (qs & _ & [[_ ->]|(log & fields & _ & _ & ->)]); simpl; [done|].
  by destruct (_ || _).
Qed.

End BackReference.

(** ** The further properties at work on the example log *)

Lemma get_for_object_failure_propagates_witness :
  get_object_state_at_timestamp
    (HistoricalStateLookupManagerMixin (Instance := string) (Store := unit))
    "e" 5 tt
  = (Raise NotImplementedError, tt) ∧
  get_field_state_at_timestamp
    (HistoricalStateLookupManagerMixin (Instance := string) (Store := unit))
    "e" "name" 5 tt
  = (Raise NotImplementedError, tt).
Proof.
  apply (get_for_object_failure_propagates
           (HistoricalStateLookupManagerMixin (Instance := string)
              (Store := unit)) "e" "name" 5 tt NotImplementedError tt).
  reflexivity.
Defined.

Lemma object_state_raises_iff_witness :
  get_object_state_at_timestamp LogEntryManager "e" 5 Scenario.null_fields
  = (Raise AttributeError, Scenario.null_fields) ↔
  AttributeError = AttributeError ∧
  ∃ log d v,
    selected 5 (Scenario.null_fields "e") = Some log ∧
    LogEntry.serialized_data log = JDict d ∧
    d !! "fields" = Some v ∧ not_copyable v.
Proof.
  apply (object_state_raises_iff LogEntryManager "e" 5 Scenario.null_fields
           (Scenario.null_fields "e") Scenario.null_fields AttributeError).
  reflexivity.
Defined.

Lemma object_state_invariant_witness :
  (HistoricalObjectState.log_found Scenario.state_b = false →
   HistoricalObjectState.serialized_fields Scenario.state_b = JNull ∧
   HistoricalObjectState.timestamp Scenario.state_b = None ∧
   HistoricalObjectState.log_entry_id Scenario.state_b = None) ∧
  (HistoricalObjectState.log_found Scenario.state_b = true →
   is_Some (HistoricalObjectState.timestamp Scenario.state_b) ∧
   is_Some (HistoricalObjectState.log_entry_id Scenario.state_b)) ∧
  (HistoricalObjectState.serialized_fields Scenario.state_b = JNull ∨
   (∃ m, HistoricalObjectState.serialized_fields Scenario.state_b = JDict m ∧
         m ≠ ∅) ∨
   (∃ x l, HistoricalObjectState.serialized_fields Scenario.state_b
           = JList (x :: l))).
Proof.
  apply (object_state_invariant LogEntryManager "e" 10 Scenario.two_snapshots
           Scenario.state_b Scenario.two_snapshots).
  vm_compute. reflexivity.
Defined.

Lemma returned_snapshot_is_latest_witness :
  (HistoricalObjectState.log_found Scenario.state_b = true ↔
   ∃ row, row ∈ Scenario.two_snapshots "e" ∧ LogEntry.timestamp row <= 10) ∧
  (HistoricalObjectState.log_found Scenario.state_b = true →
   ∃ log, latest_not_after 10 (Scenario.two_snapshots "e") log ∧
     HistoricalObjectState.timestamp Scenario.state_b
     = Some (LogEntry.timestamp log) ∧
     HistoricalObjectState.log_entry_id Scenario.state_b
     = Some (LogEntry.id log)).
Proof.
  apply (returned_snapshot_is_latest LogEntryManager "e" 10
           Scenario.two_snapshots (Scenario.two_snapshots "e")
           Scenario.two_snapshots Scenario.state_b).
  - reflexivity.
  - vm_compute. reflexivity.
Defined.

Lemma lookup_returns_latest_when_decodable_witness :
  ∃ object_state log,
    get_object_state_at_timestamp LogEntryManager "e" 10 Scenario.two_snapshots
    = (Ok object_state, Scenario.two_snapshots) ∧
    latest_not_after 10 (Scenario.two_snapshots "e") log ∧
    HistoricalObjectState.log_found object_state = true ∧
    HistoricalObjectState.timestamp object_state
    = Some (LogEntry.timestamp log) ∧
    HistoricalObjectState.log_entry_id object_state = Some (LogEntry.id log).
Proof.
  apply (lookup_returns_latest_when_decodable LogEntryManager "e" 10
           Scenario.two_snapshots (Scenario.two_snapshots "e")).
  - reflexivity.
  - eexists. split; [by left|]. simpl. lia.
  - intros row Hrow.
    repeat (apply elem_of_cons in Hrow as [->|Hrow]);
      [vm_compute; exact I..|].
    by apply elem_of_nil in Hrow.
Defined.

Lemma field_lookup_returns_stored_value_witness :
  get_field_state_at_timestamp LogEntryManager "e" "name" 10
    Scenario.two_snapshots
  = (Ok (HistoricalFieldState.mk true true "name" (JStr "b")
           (Some 5) (Some 11)), Scenario.two_snapshots).
Proof.
  apply (field_lookup_returns_stored_value LogEntryManager "e" "name" 10
           Scenario.two_snapshots (Scenario.two_snapshots "e")
           (LogEntry.mk 11 5 (Scenario.payload (Scenario.name_is "b")))
           {[ "name" := JStr "b" ]} (JStr "b")).
  - reflexivity.
  - vm_compute. reflexivity.
  - vm_compute. reflexivity.
  - vm_compute. reflexivity.
Defined.

Lemma field_lookup_missing_key_witness :
  get_field_state_at_timestamp LogEntryManager "e" "color" 10
    Scenario.two_snapshots
  = (Ok (HistoricalFieldState.mk true false "color" JNull
           (Some 5) (Some 11)), Scenario.two_snapshots).
Proof.
  apply (field_lookup_missing_key LogEntryManager "e" "color" 10
           Scenario.two_snapshots (Scenario.two_snapshots "e")
           (LogEntry.mk 11 5 (Scenario.payload (Scenario.name_is "b")))
           {[ "name" := JStr "b" ]}).
  - reflexivity.
  - vm_compute. reflexivity.
  - vm_compute. reflexivity.
  - vm_compute. reflexivity.
Defined.

Lemma later_rows_ignored_witness :
  (get_object_state_at_timestamp LogEntryManager "e" 5
     Scenario.three_snapshots).1
  = (get_object_state_at_timestamp LogEntryManager "e" 5
       Scenario.two_snapshots).1 ∧
  (get_field_state_at_timestamp LogEntryManager "e" "name" 5
     Scenario.three_snapshots).1
  = (get_field_state_at_timestamp LogEntryManager "e" "name" 5
       Scenario.two_snapshots).1.
Proof.
  apply (later_rows_ignored LogEntryManager "e" "name" 5
           Scenario.two_snapshots Scenario.two_snapshots
           Scenario.three_snapshots Scenario.three_snapshots
           (Scenario.two_snapshots "e")
           [LogEntry.mk 12 8 (Scenario.payload (Scenario.name_is "c"))]).
  - reflexivity.
  - reflexivity.
  - intros row Hrow.
    apply elem_of_cons in Hrow as [->|Hrow]; [simpl; lia|].
    by apply elem_of_nil in Hrow.
Defined.

Lemma answer_constant_since_snapshot_witness :
  get_object_state_at_timestamp LogEntryManager "e" 7 Scenario.two_snapshots
  = (Ok Scenario.state_b, Scenario.two_snapshots).
Proof.
  apply (answer_constant_since_snapshot LogEntryManager "e" 10 7
           Scenario.two_snapshots Scenario.state_b Scenario.two_snapshots 5).
  - vm_compute. reflexivity.
  - reflexivity.
  - lia.
  - lia.
Defined.

Lemma outcome_independent_of_row_order_witness :
  (get_object_state_at_timestamp LogEntryManager "e" 10
     Scenario.two_snapshots).1
  = (get_object_state_at_timestamp LogEntryManager "e" 10
       Scenario.two_snapshots_reversed).1.
Proof.
  apply (outcome_independent_of_row_order LogEntryManager "e" 10
           Scenario.two_snapshots Scenario.two_snapshots
           Scenario.two_snapshots_reversed Scenario.two_snapshots_reversed
           (Scenario.two_snapshots "e") (Scenario.two_snapshots_reversed "e")).
  - reflexivity.
  - reflexivity.
  - apply perm_swap.
  - apply (bool_decide_unpack _). vm_compute. exact I.
Defined.

Lemma timestamp_independent_of_row_order_witness :
  HistoricalObjectState.log_found Scenario.tied_state_70
  = HistoricalObjectState.log_found Scenario.tied_state_71 ∧
  HistoricalObjectState.timestamp Scenario.tied_state_70
  = HistoricalObjectState.timestamp Scenario.tied_state_71.
Proof.
  apply (timestamp_independent_of_row_order LogEntryManager "e" 10
           Scenario.tied_snapshots Scenario.tied_snapshots
           Scenario.tied_snapshots_reversed Scenario.tied_snapshots_reversed
           (Scenario.tied_snapshots "e") (Scenario.tied_snapshots_reversed "e")
           Scenario.tied_state_70 Scenario.tied_state_71).
  - reflexivity.
  - reflexivity.
  - apply perm_swap.
  - vm_compute. reflexivity.
  - vm_compute. reflexivity.
Defined.

(** The two orders of the tied rows do return different rows: only
    [log_found] and [timestamp] are shared. *)
Example tied_rows_differ_in_id :
  get_object_state_at_timestamp LogEntryManager "e" 10 Scenario.tied_snapshots
  = (Ok Scenario.tied_state_70, Scenario.tied_snapshots) ∧
  get_object_state_at_timestamp LogEntryManager "e" 10
    Scenario.tied_snapshots_reversed
  = (Ok Scenario.tied_state_71, Scenario.tied_snapshots_reversed) ∧
  HistoricalObjectState.log_entry_id Scenario.tied_state_70
  ≠ HistoricalObjectState.log_entry_id Scenario.tied_state_71.
Proof. repeat split; [vm_compute; reflexivity..|]. by intros [=]. Qed.

Lemma log_entry_is_selected_row_witness :
  ∃ log,
    object_state_log_entry (Scenario.two_snapshots "e") Scenario.state_b
    = Got log ∧
    latest_not_after 10 (Scenario.two_snapshots "e") log ∧
    HistoricalObjectState.timestamp Scenario.state_b
    = Some (LogEntry.timestamp log).
Proof.
  apply (log_entry_is_selected_row LogEntryManager "e" 10
           Scenario.two_snapshots (Scenario.two_snapshots "e")
           Scenario.two_snapshots Scenario.state_b
           (Scenario.two_snapshots "e")).
  - apply (bool_decide_unpack _). vm_compute. exact I.
  - intros row Hrow. exact Hrow.
  - reflexivity.
  - vm_compute. reflexivity.
  - reflexivity.
Defined.

Lemma log_entry_of_not_found_witness :
  object_state_log_entry (Scenario.two_snapshots "e") no_log = DoesNotExist.
Proof.
  apply (log_entry_of_not_found LogEntryManager "e" 0 Scenario.two_snapshots
           Scenario.two_snapshots no_log (Scenario.two_snapshots "e")).
  - vm_compute. reflexivity.
  - reflexivity.
Defined.

Lemma field_and_object_log_entry_agree_witness :
  field_state_log_entry (Scenario.two_snapshots "e") Scenario.field_b
  = object_state_log_entry (Scenario.two_snapshots "e") Scenario.state_b.
Proof.
  apply (field_and_object_log_entry_agree LogEntryManager "e" "name" 10
           Scenario.two_snapshots Scenario.state_b Scenario.field_b
           Scenario.two_snapshots (Scenario.two_snapshots "e")).
  - vm_compute. reflexivity.
  - vm_compute. reflexivity.
Defined.
